(** * SuperStore dashboard (app.py): the filter -> aggregate -> rank pipeline

    A shallow embedding of the data pipeline of [app.py].  The Streamlit
    widgets and the Plotly charts are the callers of this pipeline: what the
    widgets return is an input ([FilterSpec], the clicked KPI button) and
    what the script hands to them is an output ([Page]).

    Modelling choices.
    - A DataFrame is the list of its rows, in row order.  Every cell of a
      row is present: the record of the data model has no optional
      attribute, so the treatment of missing cells by pandas is not part
      of the model.
    - Sales and Profit are exact rationals ([Q], compared with [==]); the
      rounding of float64 sums is not modelled.  Quantity is an integer.
    - A float division can leave the numbers: [fnum] adds the infinities
      and NaN to [Q], and [pd_div] produces them at a zero divisor.
    - [Order Date] is a datetime64 instant, a count of nanoseconds; the
      dates of the two date inputs are day numbers, and [to_datetime]
      sends a day to its midnight.
    - [sort_values] is called without [kind=], so pandas sorts with its
      default kind, quicksort, which is documented as not stable.  The
      model takes the sorting algorithm as a parameter ([sort_kind]) of
      which only the contract of [sort_values] is known: the result is a
      rearrangement of the rows, in descending order of the column. *)

From Stdlib Require Import List ZArith QArith String Bool Lia.
From Stdlib Require Import Sorting.Permutation Sorting.Sorted.
From Stdlib Require Import Classes.RelationClasses Setoid Morphisms.
Import ListNotations.

Local Open Scope string_scope.

(** ** DataSet *)

(** One row of "Sample - Superstore.xlsx", with the columns the script
    reads. *)
Record Row : Type := mkRow {
  Order_Date   : Z;
  Region       : string;
  State        : string;
  City         : string;
  Category     : string;
  Sub_Category : string;
  Product_Name : string;
  Sales        : Q;
  Quantity     : Z;
  Profit       : Q
}.

Definition DataFrame : Type := list Row.

(** [df.empty] *)
Definition empty {A : Type} (df : list A) : bool :=
  match df with
  | [] => true
  | _ :: _ => false
  end.

(** ** Numbers *)

(** The value of a float cell: a number, an infinity or NaN. *)
Inductive fnum : Type :=
| Num (q : Q)
| PInf
| NInf
| NaN.

(** Float division: a zero divisor gives NaN for 0/0 and a signed
    infinity otherwise. *)
Definition pd_div (a b : Q) : fnum :=
  if Qeq_bool b 0 then
    match (a ?= 0)%Q with
    | Eq => NaN
    | Gt => PInf
    | Lt => NInf
    end
  else Num (a / b).

(** [Series.replace(old, new)] on one cell. *)
Definition replace (old new x : Q) : Q :=
  if Qeq_bool x old then new else x.

(** [Series.sum()] of a column of decimals and of a column of integers. *)
Definition col_sum (col : list Q) : Q := fold_right Qplus 0%Q col.
Definition col_sumZ (col : list Z) : Z := fold_right Z.add 0%Z col.

(** [Series.min()] and [Series.max()] of a datetime column; [None] is
    NaT, the result on a column with no value. *)
Definition col_min (col : list Z) : option Z :=
  match col with
  | [] => None
  | x :: rest => Some (fold_left Z.min rest x)
  end.

Definition col_max (col : list Z) : option Z :=
  match col with
  | [] => None
  | x :: rest => Some (fold_left Z.max rest x)
  end.

(** ** FilterEngine (sidebar filters, lines 23-61) *)

(** What the sidebar widgets return. *)
Record FilterSpec : Type := mkFilterSpec {
  selected_regions  : list string;
  selected_states   : list string;
  selected_category : string;
  selected_subcat   : string;
  start_date        : Z;
  end_date          : Z
}.

(** Equality of two Python lists of strings ([==]; [!=] is its negation). *)
Fixpoint list_eqb (l1 l2 : list string) : bool :=
  match l1, l2 with
  | [], [] => true
  | x :: t1, y :: t2 => String.eqb x y && list_eqb t1 t2
  | _, _ => false
  end.

(** [Series.isin(values)] on one cell. *)
Definition isin (x : string) (values : list string) : bool :=
  existsb (String.eqb x) values.

(** A multiselect stage: lines 28-29 (Region) and 34-35 (State). *)
Definition filter_multiselect (col : Row -> string) (selected : list string)
    (df : DataFrame) : DataFrame :=
  if negb (list_eqb selected ["All"]) then
    filter (fun r => isin (col r) selected) df
  else df.

(** A selectbox stage: lines 40-41 (Category) and 46-47 (Sub-Category). *)
Definition filter_selectbox (col : Row -> string) (selected : string)
    (df : DataFrame) : DataFrame :=
  if negb (String.eqb selected "All") then
    filter (fun r => String.eqb (col r) selected) df
  else df.

(** [df_filtered] after the four categorical stages (lines 27-47). *)
Definition categorical_filter (df_original : DataFrame) (spec : FilterSpec)
    : DataFrame :=
  let df_filtered := df_original in
  let df_filtered := filter_multiselect Region (selected_regions spec) df_filtered in
  let df_filtered := filter_multiselect State (selected_states spec) df_filtered in
  let df_filtered := filter_selectbox Category (selected_category spec) df_filtered in
  let df_filtered := filter_selectbox Sub_Category (selected_subcat spec) df_filtered in
  df_filtered.

(** The bounds offered by the two date inputs (lines 50-53). *)
Definition min_max_date (df_original df_filtered : DataFrame)
    : option Z * option Z :=
  if empty df_filtered then
    (col_min (map Order_Date df_original), col_max (map Order_Date df_original))
  else
    (col_min (map Order_Date df_filtered), col_max (map Order_Date df_filtered)).

(** [pd.to_datetime] of a [date]: the midnight of that day, in
    nanoseconds. *)
Definition ns_per_day : Z := 86400000000000.
Definition to_datetime (d : Z) : Z := (d * ns_per_day)%Z.

(** The date stage (line 61). *)
Definition filter_dates (start_date end_date : Z) (df_filtered : DataFrame)
    : DataFrame :=
  filter (fun r => (to_datetime start_date <=? Order_Date r)%Z
                   && (Order_Date r <=? to_datetime end_date)%Z) df_filtered.

(** The messages of the check of line 58. *)
Definition date_range_errors (start_date end_date : Z) : list string :=
  if (start_date >? end_date)%Z then
    ["Start Date must be earlier than End Date."]
  else [].

(** The working subset [df]: the categorical stages, then the dates. *)
Definition apply (df_original : DataFrame) (spec : FilterSpec) : DataFrame :=
  filter_dates (start_date spec) (end_date spec)
    (categorical_filter df_original spec).

(** ** KpiCalculator (lines 64-70) *)

Record KpiSet : Type := mkKpiSet {
  total_sales    : Q;
  total_quantity : Z;
  total_profit   : Q;
  margin_rate    : fnum
}.

Definition compute (df : DataFrame) : KpiSet :=
  if empty df then mkKpiSet 0%Q 0%Z 0%Q (Num 0%Q)
  else
    let total_sales := col_sum (map Sales df) in
    let total_quantity := col_sumZ (map Quantity df) in
    let total_profit := col_sum (map Profit df) in
    let margin_rate :=
      if negb (Qeq_bool total_sales 0) then pd_div total_profit total_sales
      else Num 0%Q in
    mkKpiSet total_sales total_quantity total_profit margin_rate.

(** ** SelectionState (lines 72-74 and 110-120) *)

(** The four KPI tiles: the keys of [kpi_data]. *)
Inductive Kpi : Type :=
| Kpi_Sales
| Kpi_Quantity
| Kpi_Profit
| Kpi_Margin_Rate.

(** [st.session_state]: [None] when the key "selected_kpi" is absent. *)
Definition SessionState : Type := option Kpi.

(** Lines 73-74: the default, on the first run of a session. *)
Definition init_selected_kpi (st : SessionState) : Kpi :=
  match st with
  | None => Kpi_Sales
  | Some kpi => kpi
  end.

(** Lines 111-120: the button that was pressed, if any, is stored. *)
Definition set_selected_kpi (pressed : option Kpi) (current : Kpi) : Kpi :=
  match pressed with
  | Some kpi => kpi
  | None => current
  end.

(** ** Aggregator (lines 129-139) *)

(** The column a frame is grouped by: its keys are compared for equality
    and, to order the groups, with [<=]. *)
Class GroupKey (K : Type) : Type := {
  key_eq_dec : forall a b : K, {a = b} + {a <> b};
  key_leb : K -> K -> bool
}.

#[export] Instance GroupKey_datetime : GroupKey Z :=
  {| key_eq_dec := Z.eq_dec; key_leb := Z.leb |}.

#[export] Instance GroupKey_string : GroupKey string :=
  {| key_eq_dec := string_dec; key_leb := String.leb |}.

(** A row of [groupby(...).agg({...: "sum"}).reset_index()]. *)
Record SumRow (K : Type) : Type := mkSumRow {
  s_key      : K;
  s_Sales    : Q;
  s_Quantity : Z;
  s_Profit   : Q
}.
Arguments mkSumRow {K}.
Arguments s_key {K}.
Arguments s_Sales {K}.
Arguments s_Quantity {K}.
Arguments s_Profit {K}.

(** A row of an aggregate table, once "Margin Rate" is added. *)
Record AggRow (K : Type) : Type := mkAggRow {
  g_key         : K;
  g_Sales       : Q;
  g_Quantity    : Z;
  g_Profit      : Q;
  g_Margin_Rate : fnum
}.
Arguments mkAggRow {K}.
Arguments g_key {K}.
Arguments g_Sales {K}.
Arguments g_Quantity {K}.
Arguments g_Profit {K}.
Arguments g_Margin_Rate {K}.

Section Aggregator.
Context {K : Type} `{GroupKey K}.

Definition key_eqb (a b : K) : bool :=
  if key_eq_dec a b then true else false.

(** The groups come out in ascending order of their key
    ([groupby] has [sort=True]). *)
Fixpoint insert_key (k : K) (keys : list K) : list K :=
  match keys with
  | [] => [k]
  | h :: rest => if key_leb k h then k :: keys else h :: insert_key k rest
  end.

Definition sort_keys (keys : list K) : list K :=
  fold_right insert_key [] keys.

Definition group_keys (by_ : Row -> K) (df : DataFrame) : list K :=
  sort_keys (nodup key_eq_dec (map by_ df)).

(** The rows of one group. *)
Definition get_group (by_ : Row -> K) (k : K) (df : DataFrame) : DataFrame :=
  filter (fun r => key_eqb (by_ r) k) df.

Definition groupby_agg_sum (by_ : Row -> K) (df : DataFrame)
    : list (SumRow K) :=
  map (fun k =>
         let grp := get_group by_ k df in
         mkSumRow k (col_sum (map Sales grp))
                    (col_sumZ (map Quantity grp))
                    (col_sum (map Profit grp)))
      (group_keys by_ df).

(** [t["Margin Rate"] = t["Profit"] / t["Sales"].replace(0, 1)] *)
Definition add_margin_rate (t : list (SumRow K)) : list (AggRow K) :=
  map (fun s =>
         mkAggRow (s_key s) (s_Sales s) (s_Quantity s) (s_Profit s)
                  (pd_div (s_Profit s) (replace 0%Q 1%Q (s_Sales s))))
      t.

Definition groupBy (by_ : Row -> K) (df : DataFrame) : list (AggRow K) :=
  add_margin_rate (groupby_agg_sum by_ df).
End Aggregator.

(** ** RankSelector (lines 135-136 and 141-142) *)

(** The cell of an aggregate row in the column named by a KPI. *)
Definition kpi_value {K : Type} (kpi : Kpi) (g : AggRow K) : fnum :=
  match kpi with
  | Kpi_Sales => Num (g_Sales g)
  | Kpi_Quantity => Num (inject_Z (g_Quantity g))
  | Kpi_Profit => Num (g_Profit g)
  | Kpi_Margin_Rate => g_Margin_Rate g
  end.

(** [fge a b]: a cell [a] may stand before a cell [b] in a column sorted
    with [ascending=False]; NaN cells go last. *)
Definition fge (a b : fnum) : bool :=
  match a, b with
  | _, NaN => true
  | NaN, _ => false
  | PInf, _ => true
  | _, PInf => false
  | _, NInf => true
  | NInf, _ => false
  | Num x, Num y => Qle_bool y x
  end.

(** Two cells that compare equal: a tie of the sort. *)
Definition ftie (a b : fnum) : bool := fge a b && fge b a.

Definition descending {A : Type} (by_ : A -> fnum) (a b : A) : Prop :=
  fge (by_ a) (by_ b) = true.

(** The sorting algorithm behind [sort_values(ascending=False)], known by
    its contract only. *)
Record sort_kind : Type := mkSortKind {
  sort_desc : forall A : Type, (A -> fnum) -> list A -> list A;
  sort_desc_perm : forall (A : Type) (by_ : A -> fnum) (l : list A),
    Permutation l (sort_desc A by_ l);
  sort_desc_sorted : forall (A : Type) (by_ : A -> fnum) (l : list A),
    StronglySorted (descending by_) (sort_desc A by_ l)
}.

(** [table.sort_values(by=kpi, ascending=False, inplace=True)]: the value
    of [table] afterwards. *)
Definition sort_values {K : Type} (kind : sort_kind) (kpi : Kpi)
    (table : list (AggRow K)) : list (AggRow K) :=
  sort_desc kind (AggRow K) (kpi_value kpi) table.

(** [table.head(n)] *)
Definition head {A : Type} (n : nat) (table : list A) : list A := firstn n table.

Definition topN {K : Type} (kind : sort_kind) (table : list (AggRow K))
    (kpi : Kpi) (n : nat) : list (AggRow K) :=
  head n (sort_values kind kpi table).

(** ** The script, from the filters to the chart data *)

(** The frames of the [else] branch of line 126.  [city_grouped] and
    [product_grouped] are the frames as the in-place sort leaves them. *)
Record Charts : Type := mkCharts {
  daily_grouped   : list (AggRow Z);
  city_grouped    : list (AggRow string);
  top_10_city     : list (AggRow string);
  product_grouped : list (AggRow string);
  top_10_product  : list (AggRow string);
  plotted         : Kpi
}.

Definition chart_data (kind : sort_kind) (df : DataFrame) (kpi : Kpi)
    : option Charts :=
  if empty df then None
  else
    let daily_grouped := groupBy Order_Date df in
    let city_grouped := groupBy City df in
    let city_grouped := sort_values kind kpi city_grouped in
    let top_10_city := head 10 city_grouped in
    let product_grouped := groupBy Product_Name df in
    let product_grouped := sort_values kind kpi product_grouped in
    let top_10_product := head 10 product_grouped in
    Some (mkCharts daily_grouped city_grouped top_10_city
                   product_grouped top_10_product kpi).

(** What one run of the script shows. *)
Record Page : Type := mkPage {
  date_bounds    : option Z * option Z;
  sidebar_errors : list string;
  working_subset : DataFrame;
  kpis           : KpiSet;
  selected_kpi   : Kpi;
  warnings       : list string;
  charts         : option Charts
}.

(** One run: the session state before, what the widgets return, and the
    session state after with the page. *)
Definition run (kind : sort_kind) (df_original : DataFrame)
    (spec : FilterSpec) (pressed : option Kpi) (st : SessionState)
    : SessionState * Page :=
  let df_filtered := categorical_filter df_original spec in
  let bounds := min_max_date df_original df_filtered in
  let errors := date_range_errors (start_date spec) (end_date spec) in
  let df := filter_dates (start_date spec) (end_date spec) df_filtered in
  let kpis := compute df in
  let kpi := set_selected_kpi pressed (init_selected_kpi st) in
  let warnings :=
    if empty df then
      ["No data available for the selected filters and date range."]
    else [] in
  (Some kpi,
   mkPage bounds errors df kpis kpi warnings (chart_data kind df kpi)).

(** ** Reference sort: insertion sort, descending *)

Section InsertionSort.
Context {A : Type} (by_ : A -> fnum).

(** Insertion from the right end: a row goes before the first row it
    may stand before, so rows that tie keep their order. *)
Fixpoint insert_desc (x : A) (l : list A) : list A :=
  match l with
  | [] => [x]
  | y :: rest =>
      if fge (by_ x) (by_ y) then x :: l else y :: insert_desc x rest
  end.

Definition isort_desc (l : list A) : list A := fold_right insert_desc [] l.
End InsertionSort.

(** ** Vocabulary of the statements *)

(** [is_min lo col]: [lo] is a value of the column and no value is below
    it; [is_max] likewise. *)
Definition is_min (lo : Z) (col : list Z) : Prop :=
  In lo col /\ Forall (fun d => (lo <= d)%Z) col.
Definition is_max (hi : Z) (col : list Z) : Prop :=
  In hi col /\ Forall (fun d => (d <= hi)%Z) col.

(** The KPIs of the empty-result state. *)
Definition zero_kpis : KpiSet := mkKpiSet 0%Q 0%Z 0%Q (Num 0%Q).




(** [before a b l]: in [l], an occurrence of [a] stands before an
    occurrence of [b]. *)
Inductive before {A : Type} (a b : A) : list A -> Prop :=
| before_here (l : list A) : In b l -> before a b (a :: l)
| before_skip (x : A) (l : list A) : before a b l -> before a b (x :: l).

(** The order of ties, as the spec states it: two rows of the table whose
    cells in the KPI column tie, and that are both among the rows
    returned, come out in the order they had in the table. *)
Definition keeps_tie_order {K : Type} (kpi : Kpi)
    (table top : list (AggRow K)) : Prop :=
  forall a b : AggRow K,
    ftie (kpi_value kpi a) (kpi_value kpi b) = true ->
    before a b table -> In a top -> In b top -> before a b top.

(** ** Sample data *)

Definition chairs : Row :=
  mkRow (to_datetime 10) "East" "New York" "A" "Furniture" "Chairs" "P1"
        100 2 10.
Definition tables : Row :=
  mkRow (to_datetime 11) "East" "New York" "A" "Furniture" "Tables" "P2"
        50 1 (-5).
Definition phones : Row :=
  mkRow (to_datetime 12) "West" "California" "B" "Technology" "Phones" "P3"
        200 3 40.

(** The three records of the grouping scenario. *)
Definition superstore : DataFrame := [chairs; tables; phones].

(** A return that cancels the sales of the chairs: the Sales of city A
    then add up to 0. *)
Definition refund : Row :=
  mkRow (to_datetime 10) "East" "New York" "A" "Furniture" "Chairs" "P1"
        (-100) 1 (-7).

(** Two cities with the same sales. *)
Definition desk : Row :=
  mkRow (to_datetime 10) "East" "New York" "A" "Furniture" "Desks" "P4" 5 1 1.
Definition lamp : Row :=
  mkRow (to_datetime 10) "West" "California" "B" "Furniture" "Lamps" "P5" 5 1 2.
Definition tied_cities : list (AggRow string) := groupBy City [desk; lamp].

(** Nothing is constrained; the dates span the three records. *)
Definition no_filter : FilterSpec :=
  mkFilterSpec ["All"] ["All"] "All" "All" 10 12.

(** The start date is after the end date; the three records lie between
    day 10 and day 12. *)
Definition backwards : FilterSpec :=
  mkFilterSpec ["All"] ["All"] "All" "All" 12 10.

(** No region is selected, and no state is selected. *)
Definition no_region : FilterSpec := mkFilterSpec [] ["All"] "All" "All" 10 12.

(** East is selected, then New York, Furniture and Tables: each an
    offered value. *)
Definition East_tables : FilterSpec :=
  mkFilterSpec ["East"] ["New York"] "Furniture" "Tables" 10 12.


(** ** Sidebar option lists (lines 24-25, 32-33, 38-39 and 44-45) *)

(** [Series.unique()]: the distinct values, in order of first
    appearance.  ([dropna()] before it removes nothing: every cell is
    present.) *)
Fixpoint unique (col : list string) : list string :=
  match col with
  | [] => []
  | x :: rest => x :: filter (fun y => negb (String.eqb y x)) (unique rest)
  end.

(** [sorted(...)] of a list of strings. *)
Definition sorted (values : list string) : list string := sort_keys values.

(** [df_filtered] after the Region stage, after the State stage and
    after the Category stage. *)
Definition after_regions (df_original : DataFrame) (spec : FilterSpec)
    : DataFrame :=
  filter_multiselect Region (selected_regions spec) df_original.

Definition after_states (df_original : DataFrame) (spec : FilterSpec)
    : DataFrame :=
  filter_multiselect State (selected_states spec)
    (after_regions df_original spec).

Definition after_category (df_original : DataFrame) (spec : FilterSpec)
    : DataFrame :=
  filter_selectbox Category (selected_category spec)
    (after_states df_original spec).

(** The values each widget offers, after "All". *)
Definition all_regions (df_original : DataFrame) : list string :=
  sorted (unique (map Region df_original)).

Definition all_states (df_original : DataFrame) (spec : FilterSpec)
    : list string :=
  sorted (unique (map State (after_regions df_original spec))).

Definition all_categories (df_original : DataFrame) (spec : FilterSpec)
    : list string :=
  sorted (unique (map Category (after_states df_original spec))).

Definition all_subcats (df_original : DataFrame) (spec : FilterSpec)
    : list string :=
  sorted (unique (map Sub_Category (after_category df_original spec))).

(** [options=["All"] + values] *)
Definition options (values : list string) : list string := "All" :: values.

(** ** The session, run after run *)


(** ** Vocabulary of the further statements *)

(** The test a row passes at a multiselect stage, at a selectbox stage
    and at the date stage. *)
Definition multiselect_ok (selected : list string) (x : string) : bool :=
  if negb (list_eqb selected ["All"]) then isin x selected else true.

Definition selectbox_ok (selected : string) (x : string) : bool :=
  if negb (String.eqb selected "All") then String.eqb x selected else true.

Definition date_ok (start_date end_date : Z) (d : Z) : bool :=
  (to_datetime start_date <=? d)%Z && (d <=? to_datetime end_date)%Z.

(** The conjunction of the five tests. *)
Definition keeps (spec : FilterSpec) (r : Row) : bool :=
  multiselect_ok (selected_regions spec) (Region r)
  && multiselect_ok (selected_states spec) (State r)
  && selectbox_ok (selected_category spec) (Category r)
  && selectbox_ok (selected_subcat spec) (Sub_Category r)
  && date_ok (start_date spec) (end_date spec) (Order_Date r).

(** The laws of the order of a key column. *)
Class GroupKeyOrder (K : Type) `{GroupKey K} : Prop := {
  key_leb_total : forall a b : K, key_leb a b = true \/ key_leb b a = true;
  key_leb_trans : forall a b c : K,
    key_leb a b = true -> key_leb b c = true -> key_leb a c = true;
  key_leb_antisym : forall a b : K,
    key_leb a b = true -> key_leb b a = true -> a = b
}.

(** [ascending a b]: [a] stands strictly before [b] in the order of the
    keys. *)
Definition ascending {K : Type} `{GroupKey K} (a b : K) : Prop :=
  key_leb a b = true /\ a <> b.


(** A list of offered values for a column: its distinct values, each
    once, in strictly ascending order. *)
Definition offers (values col : list string) : Prop :=
  NoDup values
  /\ StronglySorted ascending values
  /\ forall x : string, In x values <-> In x col.


(** ** Two sorting algorithms that meet the contract of [sort_values] *)

Lemma fge_total (a b : fnum) : fge a b = false -> fge b a = true.
Proof.
  destruct a as [x| | |], b as [y| | |]; simpl; try congruence.
  intro Hxy. apply Qle_bool_iff.
  destruct (Qlt_le_dec x y) as [Hlt|Hle].
  - apply Qlt_le_weak; exact Hlt.
  - apply Qle_bool_iff in Hle. congruence.
Qed.

Lemma fge_trans (a b c : fnum) :
  fge a b = true -> fge b c = true -> fge a c = true.
Proof.
  destruct a as [x| | |], b as [y| | |], c as [z| | |]; simpl;
    try congruence.
  rewrite !Qle_bool_iff. intros Hyx Hzy.
  apply Qle_trans with y; assumption.
Qed.

Section InsertionSortFacts.
Context {A : Type} (by_ : A -> fnum).

Lemma insert_desc_perm (x : A) (l : list A) :
  Permutation (x :: l) (insert_desc by_ x l).
Proof.
  induction l as [|y rest IH]; simpl.
  - apply Permutation_refl.
  - destruct (fge (by_ x) (by_ y)).
    + apply Permutation_refl.
    + apply perm_trans with (y :: x :: rest).
      * apply perm_swap.
      * apply perm_skip, IH.
Qed.

Lemma isort_desc_perm (l : list A) : Permutation l (isort_desc by_ l).
Proof.
  induction l as [|x rest IH]; simpl.
  - apply perm_nil.
  - apply perm_trans with (x :: isort_desc by_ rest).
    + apply perm_skip, IH.
    + apply insert_desc_perm.
Qed.

Lemma insert_desc_sorted (x : A) (l : list A) :
  StronglySorted (descending by_) l ->
  StronglySorted (descending by_) (insert_desc by_ x l).
Proof.
  induction 1 as [|y rest Hsorted IH Hall]; simpl.
  - constructor; constructor.
  - destruct (fge (by_ x) (by_ y)) eqn:Hxy.
    + constructor.
      * constructor; assumption.
      * constructor; [exact Hxy|].
        eapply Forall_impl; [|exact Hall].
        intros z Hyz. unfold descending in *.
        eapply fge_trans; eassumption.
    + constructor; [exact IH|].
      apply Forall_forall. intros z Hz.
      apply Permutation_in with (l' := x :: rest) in Hz;
        [|apply Permutation_sym, insert_desc_perm].
      destruct Hz as [<-|Hz].
      * apply fge_total; exact Hxy.
      * rewrite Forall_forall in Hall. apply Hall; exact Hz.
Qed.

Lemma isort_desc_sorted (l : list A) :
  StronglySorted (descending by_) (isort_desc by_ l).
Proof.
  induction l as [|x rest IH]; simpl.
  - constructor.
  - apply insert_desc_sorted; exact IH.
Qed.
End InsertionSortFacts.

(** A stable kind: insertion sort. *)
Definition stable_kind : sort_kind :=
  mkSortKind (fun A by_ l => isort_desc by_ l)
             (fun A by_ l => isort_desc_perm by_ l)
             (fun A by_ l => isort_desc_sorted by_ l).

(** A kind that meets the contract and is not stable: the rows are taken
    from the last to the first, which turns every run of ties around. *)
Definition reversing_kind : sort_kind :=
  mkSortKind (fun A by_ l => isort_desc by_ (rev l))
             (fun A by_ l =>
                perm_trans (Permutation_rev l) (isort_desc_perm by_ (rev l)))
             (fun A by_ l => isort_desc_sorted by_ (rev l)).

(** ** FilterEngine: facts *)

Lemma list_eqb_eq (l1 l2 : list string) : list_eqb l1 l2 = true <-> l1 = l2.
Proof.
  revert l2. induction l1 as [|x t1 IH]; intros [|y t2]; simpl;
    try (split; [discriminate | congruence]).
  - split; reflexivity.
  - rewrite andb_true_iff, String.eqb_eq, IH. split.
    + intros [-> ->]; reflexivity.
    + intros Heq; injection Heq; auto.
Qed.

Lemma isin_In (x : string) (values : list string) :
  isin x values = true <-> In x values.
Proof.
  unfold isin. rewrite existsb_exists. split.
  - intros [y [Hy Heq]]. apply String.eqb_eq in Heq. subst y. exact Hy.
  - intros Hx. exists x. split; [exact Hx | apply String.eqb_refl].
Qed.











Lemma to_datetime_lt (d1 d2 : Z) :
  (d1 < d2)%Z -> (to_datetime d1 < to_datetime d2)%Z.
Proof.
  unfold to_datetime, ns_per_day. intro Hlt.
  apply Z.mul_lt_mono_pos_r; [reflexivity | exact Hlt].
Qed.

Lemma filter_dates_invalid (start_date end_date : Z) (df_filtered : DataFrame) :
  (start_date > end_date)%Z ->
  filter_dates start_date end_date df_filtered = [].
Proof.
  intro Hgt. unfold filter_dates.
  induction df_filtered as [|r rest IH]; simpl; [reflexivity|].
  rewrite IH.
  destruct ((to_datetime start_date <=? Order_Date r)%Z
            && (Order_Date r <=? to_datetime end_date)%Z) eqn:Hkeep;
    [|reflexivity].
  apply andb_true_iff in Hkeep. destruct Hkeep as [Hlo Hhi].
  apply Z.leb_le in Hlo, Hhi.
  assert (Hlt : (to_datetime end_date < to_datetime start_date)%Z)
    by (apply to_datetime_lt; lia).
  lia.
Qed.

(** The least and the greatest value of a column that has a value. *)
Lemma fold_left_min_least (rest : list Z) (x : Z) :
  In (fold_left Z.min rest x) (x :: rest)
  /\ Forall (fun d => (fold_left Z.min rest x <= d)%Z) (x :: rest).
Proof.
  revert x. induction rest as [|y rest IH]; intro x; simpl.
  - split; [left; reflexivity | constructor; [lia | constructor]].
  - destruct (IH (Z.min x y)) as [Hin Hall]. simpl in Hin.
    inversion Hall as [|? ? Hhd Htl]; subst. split.
    + destruct Hin as [Hin|Hin]; [|right; right; exact Hin].
      destruct (Z.min_spec x y) as [[_ Hm]|[_ Hm]]; [left | right; left];
        (transitivity (Z.min x y); [symmetry; exact Hm | exact Hin]).
    + constructor; [lia | constructor; [lia | exact Htl]].
Qed.

Lemma fold_left_max_greatest (rest : list Z) (x : Z) :
  In (fold_left Z.max rest x) (x :: rest)
  /\ Forall (fun d => (d <= fold_left Z.max rest x)%Z) (x :: rest).
Proof.
  revert x. induction rest as [|y rest IH]; intro x; simpl.
  - split; [left; reflexivity | constructor; [lia | constructor]].
  - destruct (IH (Z.max x y)) as [Hin Hall]. simpl in Hin.
    inversion Hall as [|? ? Hhd Htl]; subst. split.
    + destruct Hin as [Hin|Hin]; [|right; right; exact Hin].
      destruct (Z.max_spec x y) as [[_ Hm]|[_ Hm]]; [right; left | left];
        (transitivity (Z.max x y); [symmetry; exact Hm | exact Hin]).
    + constructor; [lia | constructor; [lia | exact Htl]].
Qed.

Lemma col_min_max_defined (col : list Z) :
  col <> [] ->
  exists lo hi, col_min col = Some lo /\ col_max col = Some hi
                /\ is_min lo col /\ is_max hi col.
Proof.
  destruct col as [|x rest]; [congruence|]. intros _.
  exists (fold_left Z.min rest x), (fold_left Z.max rest x).
  repeat split; try reflexivity.
  - apply fold_left_min_least.
  - apply fold_left_min_least.
  - apply fold_left_max_greatest.
  - apply fold_left_max_greatest.
Qed.

(** ** Aggregator: facts *)

(** Sums of a column, over any commutative monoid: the decimals with
    [==] and the integers with [=] are the two instances below. *)
Section Sums.
Context {V : Type} (veq : V -> V -> Prop) (vadd : V -> V -> V) (v0 : V).
Context {veq_equiv : Equivalence veq}.
Context {vadd_proper : Proper (veq ==> veq ==> veq) vadd}.
Hypothesis vadd_assoc : forall a b c, veq (vadd a (vadd b c)) (vadd (vadd a b) c).
Hypothesis vadd_comm : forall a b, veq (vadd a b) (vadd b a).
Hypothesis vadd_0_l : forall a, veq (vadd v0 a) a.



Context {K : Type} `{GroupKey K}.




Lemma sort_keys_perm (keys : list K) : Permutation keys (sort_keys keys).
Proof.
  induction keys as [|k rest IH]; simpl; [apply perm_nil|].
  apply perm_trans with (k :: sort_keys rest); [apply perm_skip, IH|].
  generalize (sort_keys rest). intro l.
  induction l as [|h t IHl]; simpl; [apply Permutation_refl|].
  destruct (key_leb k h); [apply Permutation_refl|].
  apply perm_trans with (h :: k :: t); [apply perm_swap | apply perm_skip, IHl].
Qed.

Lemma group_keys_NoDup (by_ : Row -> K) (df : DataFrame) :
  NoDup (group_keys by_ df).
Proof.
  unfold group_keys.
  eapply Permutation_NoDup; [apply sort_keys_perm | apply NoDup_nodup].
Qed.

Lemma group_keys_In (by_ : Row -> K) (df : DataFrame) (k : K) :
  In k (group_keys by_ df) <-> In k (map by_ df).
Proof.
  unfold group_keys. split; intro Hin.
  - apply (nodup_In key_eq_dec).
    eapply Permutation_in; [apply Permutation_sym, sort_keys_perm | exact Hin].
  - eapply Permutation_in; [apply sort_keys_perm|].
    apply nodup_In; exact Hin.
Qed.

End Sums.





(** The columns of a grouped frame, read off the groups. *)
Lemma groupBy_keys {K : Type} `{GroupKey K} (by_ : Row -> K) (df : DataFrame) :
  map g_key (groupBy by_ df) = group_keys by_ df.
Proof.
  unfold groupBy, add_margin_rate, groupby_agg_sum. rewrite !map_map. simpl.
  apply map_id.
Qed.







Lemma chart_data_empty (kind : sort_kind) (kpi : Kpi) :
  chart_data kind [] kpi = None.
Proof. reflexivity. Qed.

Lemma sort_values_perm {K : Type} (kind : sort_kind) (kpi : Kpi)
    (table : list (AggRow K)) :
  Permutation table (sort_values kind kpi table).
Proof. unfold sort_values. apply sort_desc_perm. Qed.



(** ** RankSelector: facts *)


Lemma sort_values_length {K : Type} (kind : sort_kind) (kpi : Kpi)
    (table : list (AggRow K)) :
  List.length (sort_values kind kpi table) = List.length table.
Proof. symmetry. apply Permutation_length, sort_values_perm. Qed.

Lemma groupBy_length {K : Type} `{GroupKey K} (by_ : Row -> K) (df : DataFrame) :
  List.length (groupBy by_ df) = List.length (nodup key_eq_dec (map by_ df)).
Proof.
  unfold groupBy, add_margin_rate, groupby_agg_sum, group_keys.
  rewrite !List.length_map. symmetry. apply Permutation_length, sort_keys_perm.
Qed.

(** Insertion sort keeps the order of the rows that tie. *)
Section Stability.
Context {A : Type} (by_ : A -> fnum).

Lemma insert_desc_before (x a b : A) (l : list A) :
  before a b l -> before a b (insert_desc by_ x l).
Proof.
  induction 1 as [l Hb|y l Hab IH]; simpl.
  - destruct (fge (by_ x) (by_ a)).
    + apply before_skip, before_here, Hb.
    + apply before_here.
      eapply Permutation_in; [apply insert_desc_perm|]. right; exact Hb.
  - destruct (fge (by_ x) (by_ y)).
    + apply before_skip, before_skip, Hab.
    + apply before_skip, IH.
Qed.

Lemma insert_desc_first (x b : A) (l : list A) :
  In b l -> fge (by_ x) (by_ b) = true -> before x b (insert_desc by_ x l).
Proof.
  induction l as [|y rest IH]; simpl; intros Hb Hxb; [contradiction|].
  destruct (fge (by_ x) (by_ y)) eqn:Hxy.
  - apply before_here. exact Hb.
  - apply before_skip, IH; [|exact Hxb].
    destruct Hb as [->|Hb]; [congruence | exact Hb].
Qed.

Lemma isort_desc_stable (l : list A) (a b : A) :
  ftie (by_ a) (by_ b) = true -> before a b l -> before a b (isort_desc by_ l).
Proof.
  intros Htie Hab. apply andb_true_iff in Htie. destruct Htie as [Hge _].
  induction Hab as [l Hb|y l Hab IH]; simpl.
  - apply insert_desc_first; [|exact Hge].
    eapply Permutation_in; [apply isort_desc_perm | exact Hb].
  - apply insert_desc_before, IH.
Qed.
End Stability.

(** ** The sample data, evaluated *)

Lemma superstore_by_city :
  map (fun g => (g_key g, Qred (g_Sales g), Qred (g_Profit g)))
      (groupBy City superstore)
  = [("A", 150 # 1, 5 # 1); ("B", 200 # 1, 40 # 1)].
Proof. vm_compute. reflexivity. Qed.

Lemma superstore_top_cities :
  map g_key (topN stable_kind (groupBy City superstore) Kpi_Sales 10)
  = ["B"; "A"].
Proof. vm_compute. reflexivity. Qed.

Lemma tied_cities_rows :
  map (fun g => (g_key g, Qred (g_Sales g))) tied_cities
  = [("A", 5 # 1); ("B", 5 # 1)].
Proof. vm_compute. reflexivity. Qed.

Lemma tied_cities_stable_kind :
  map g_key (topN stable_kind tied_cities Kpi_Sales 10) = ["A"; "B"].
Proof. vm_compute. reflexivity. Qed.

Lemma tied_cities_reversing_kind :
  map g_key (topN reversing_kind tied_cities Kpi_Sales 10) = ["B"; "A"].
Proof. vm_compute. reflexivity. Qed.

(** ** RankSelector: the claims *)

(** With a stable kind the ties do keep their order. *)
Lemma stable_kind_keeps_ties {K : Type} (table : list (AggRow K)) (kpi : Kpi) :
  keeps_tie_order kpi table (sort_values stable_kind kpi table).
Proof.
  intros a b Htie Hab _ _. unfold sort_values. simpl.
  apply isort_desc_stable; assumption.
Qed.



(** C6: [topN] with [n = 10] returns min(10, number of rows of the table)
    rows, none for the empty table; for the table of a grouping, that is
    min(10, number of distinct keys of the frame). *)
Theorem topN_length {K : Type} `{GroupKey K} (kind : sort_kind) (kpi : Kpi) :
  (forall table : list (AggRow K),
      List.length (topN kind table kpi 10) = Nat.min 10 (List.length table))
  /\ topN kind (@nil (AggRow K)) kpi 10 = []
  /\ (forall (by_ : Row -> K) (df : DataFrame),
         List.length (topN kind (groupBy by_ df) kpi 10)
         = Nat.min 10 (List.length (nodup key_eq_dec (map by_ df)))).
Proof.
  assert (Hlen : forall table : list (AggRow K),
             List.length (topN kind table kpi 10)
             = Nat.min 10 (List.length table)).
  { intro table. unfold topN, head.
    rewrite length_firstn, sort_values_length. reflexivity. }
  split; [exact Hlen|]. split.
  - specialize (Hlen []). simpl in Hlen.
    destruct (topN kind [] kpi 10); [reflexivity | discriminate].
  - intros by_ df. rewrite Hlen, groupBy_length. reflexivity.
Qed.

(** ** Aggregator: the claims *)





Lemma zero_sales_group :
  map (fun g => (g_key g, Qred (g_Sales g), g_Margin_Rate g))
      (groupBy City [chairs; refund])
  = [("A", 0 # 1, Num (3 # 1))].
Proof. vm_compute. reflexivity. Qed.

(** ** SelectionState: the claims *)

(** C8: two runs of the script on the same data set and filters, one
    for each of two pressed KPI buttons, select the pressed KPI and have
    the same working subset and KPI totals; the time-series table is the
    same, and the city and product tables hold the same rows (keys with
    their four values), which only the sort may have put in another
    order.  The top-10 tables are the first ten rows of these and
    the plotted column is the selected KPI. *)
Theorem selection_preserves_tables (kind : sort_kind)
    (df_original : DataFrame) (spec : FilterSpec) (st : SessionState)
    (kpi1 kpi2 : Kpi) :
  let r1 := run kind df_original spec (Some kpi1) st in
  let r2 := run kind df_original spec (Some kpi2) st in
  fst r1 = Some kpi1 /\ fst r2 = Some kpi2
  /\ selected_kpi (snd r1) = kpi1 /\ selected_kpi (snd r2) = kpi2
  /\ working_subset (snd r1) = working_subset (snd r2)
  /\ kpis (snd r1) = kpis (snd r2)
  /\ match charts (snd r1), charts (snd r2) with
     | Some c1, Some c2 =>
         daily_grouped c1 = daily_grouped c2
         /\ Permutation (city_grouped c1) (city_grouped c2)
         /\ Permutation (product_grouped c1) (product_grouped c2)
         /\ Permutation (city_grouped c1) (groupBy City (working_subset (snd r1)))
         /\ Permutation (product_grouped c1)
                        (groupBy Product_Name (working_subset (snd r1)))
         /\ top_10_city c1 = head 10 (city_grouped c1)
         /\ top_10_product c1 = head 10 (product_grouped c1)
         /\ plotted c1 = kpi1 /\ plotted c2 = kpi2
     | None, None => working_subset (snd r1) = []
     | _, _ => False
     end.
Proof.
  simpl. repeat (split; [reflexivity|]).
  set (df := filter_dates (start_date spec) (end_date spec)
               (categorical_filter df_original spec)).
  unfold chart_data. destruct df as [|r rest] eqn:Hdf; simpl empty; cbv iota.
  - reflexivity.
  - simpl. split; [reflexivity|].
    assert (Hc : forall kpi, Permutation
                   (sort_values kind kpi (groupBy City (r :: rest)))
                   (groupBy City (r :: rest)))
      by (intro kpi; apply Permutation_sym, sort_values_perm).
    assert (Hp : forall kpi, Permutation
                   (sort_values kind kpi (groupBy Product_Name (r :: rest)))
                   (groupBy Product_Name (r :: rest)))
      by (intro kpi; apply Permutation_sym, sort_values_perm).
    split; [eapply perm_trans; [apply Hc | apply Permutation_sym, Hc]|].
    split; [eapply perm_trans; [apply Hp | apply Permutation_sym, Hp]|].
    split; [apply Hc|]. split; [apply Hp|].
    repeat split; reflexivity.
Qed.

(** ** KpiCalculator: the claims *)



(** ** FilterEngine: the claims *)

(** C4: when the start date is after the end date, the date stage keeps
    no row of any data set, the KPIs are the four zeros, no chart frame
    is built, and the run reports the error on the sidebar.  The bounds
    are used as given: the subset is empty also when rows lie between the
    end date and the start date. *)
Theorem invalid_date_range (kind : sort_kind) (df_original : DataFrame)
    (spec : FilterSpec) (pressed : option Kpi) (st : SessionState) :
  (start_date spec > end_date spec)%Z ->
  let page := snd (run kind df_original spec pressed st) in
  apply df_original spec = []
  /\ working_subset page = apply df_original spec
  /\ compute (apply df_original spec) = zero_kpis
  /\ kpis page = zero_kpis
  /\ charts page = None
  /\ sidebar_errors page = ["Start Date must be earlier than End Date."].
Proof.
  intro Hgt. simpl.
  assert (Hempty : apply df_original spec = [])
    by (apply filter_dates_invalid; exact Hgt).
  unfold apply in Hempty |- *. rewrite Hempty.
  repeat split; try reflexivity.
  unfold date_range_errors.
  destruct (start_date spec >? end_date spec)%Z eqn:Hcmp; [reflexivity|].
  rewrite Z.gtb_ltb in Hcmp. apply Z.ltb_ge in Hcmp. lia.
Qed.

Lemma invalid_date_range_witness :
  apply superstore backwards = []
  /\ working_subset (snd (run stable_kind superstore backwards None None))
     = apply superstore backwards
  /\ compute (apply superstore backwards) = zero_kpis
  /\ kpis (snd (run stable_kind superstore backwards None None)) = zero_kpis
  /\ charts (snd (run stable_kind superstore backwards None None)) = None
  /\ sidebar_errors (snd (run stable_kind superstore backwards None None))
     = ["Start Date must be earlier than End Date."].
Proof.
  apply (invalid_date_range stable_kind superstore backwards None None).
  vm_compute. reflexivity.
Defined.

Lemma dates_not_swapped :
  apply superstore backwards = []
  /\ filter_dates (end_date backwards) (start_date backwards)
       (categorical_filter superstore backwards) = superstore.
Proof. split; vm_compute; reflexivity. Qed.

Lemma valid_date_range_no_error (start_date end_date : Z) :
  (start_date <= end_date)%Z -> date_range_errors start_date end_date = [].
Proof.
  intro Hle. unfold date_range_errors.
  destruct (start_date >? end_date)%Z eqn:Hcmp; [|reflexivity].
  rewrite Z.gtb_ltb in Hcmp. apply Z.ltb_lt in Hcmp. lia.
Qed.

(** C7, as stated, does not hold on the data set with no row: the subset
    is empty, the fallback takes the minimum and the maximum of a column
    with no value, and both bounds are NaT. *)
Lemma min_max_date_empty_dataset :
  ~ (forall (df_original : DataFrame) (spec : FilterSpec),
        exists lo hi : Z,
          min_max_date df_original (categorical_filter df_original spec)
          = (Some lo, Some hi)).
Proof.
  intro Hdefined. destruct (Hdefined [] no_filter) as [lo [hi Hbounds]].
  discriminate Hbounds.
Qed.

(** C7, amended: on a data set with at least one row, the bounds are two
    dates: the least and the greatest Order Date of the whole data set
    when the filtered subset is empty, and of the filtered subset
    otherwise. *)
Theorem min_max_date_bounds (df_original df_filtered : DataFrame) :
  df_original <> [] ->
  exists lo hi : Z,
    min_max_date df_original df_filtered = (Some lo, Some hi)
    /\ (df_filtered = [] ->
        is_min lo (map Order_Date df_original)
        /\ is_max hi (map Order_Date df_original))
    /\ (df_filtered <> [] ->
        is_min lo (map Order_Date df_filtered)
        /\ is_max hi (map Order_Date df_filtered)).
Proof.
  intro Hne. unfold min_max_date.
  destruct df_filtered as [|r rest]; simpl empty; cbv iota.
  - destruct (col_min_max_defined (map Order_Date df_original))
      as [lo [hi [Hlo [Hhi [Hmin Hmax]]]]].
    { destruct df_original; [congruence | discriminate]. }
    exists lo, hi. rewrite Hlo, Hhi. split; [reflexivity|]. split.
    + intros _. split; assumption.
    + intro Hcontra. congruence.
  - destruct (col_min_max_defined (map Order_Date (r :: rest)))
      as [lo [hi [Hlo [Hhi [Hmin Hmax]]]]]; [discriminate|].
    exists lo, hi. rewrite Hlo, Hhi. split; [reflexivity|]. split.
    + discriminate.
    + intros _. split; assumption.
Qed.

Lemma min_max_date_bounds_witness :
  categorical_filter superstore no_region = []
  /\ min_max_date superstore (categorical_filter superstore no_region)
     = (Some (to_datetime 10), Some (to_datetime 12))
  /\ exists lo hi : Z,
       min_max_date superstore (categorical_filter superstore no_region)
       = (Some lo, Some hi)
       /\ (categorical_filter superstore no_region = [] ->
           is_min lo (map Order_Date superstore)
           /\ is_max hi (map Order_Date superstore))
       /\ (categorical_filter superstore no_region <> [] ->
           is_min lo (map Order_Date (categorical_filter superstore no_region))
           /\ is_max hi (map Order_Date (categorical_filter superstore no_region))).
Proof.
  split; [reflexivity|]. split; [reflexivity|].
  apply (min_max_date_bounds superstore (categorical_filter superstore no_region)).
  discriminate.
Defined.





(** ** FilterEngine: further properties *)

Lemma filter_true {A : Type} (l : list A) : filter (fun _ => true) l = l.
Proof. induction l as [|x rest IH]; simpl; [reflexivity | rewrite IH; reflexivity]. Qed.

Lemma filter_filter_andb {A : Type} (p q : A -> bool) (l : list A) :
  filter q (filter p l) = filter (fun x => p x && q x) l.
Proof.
  induction l as [|x rest IH]; simpl; [reflexivity|].
  destruct (p x); simpl; [|exact IH].
  destruct (q x); rewrite IH; reflexivity.
Qed.

Lemma filter_multiselect_test (col : Row -> string) (selected : list string)
    (df : DataFrame) :
  filter_multiselect col selected df
  = filter (fun r => multiselect_ok selected (col r)) df.
Proof.
  unfold filter_multiselect, multiselect_ok.
  destruct (negb (list_eqb selected ["All"])); [reflexivity|].
  symmetry. apply filter_true.
Qed.

Lemma filter_selectbox_test (col : Row -> string) (selected : string)
    (df : DataFrame) :
  filter_selectbox col selected df
  = filter (fun r => selectbox_ok selected (col r)) df.
Proof.
  unfold filter_selectbox, selectbox_ok.
  destruct (negb (String.eqb selected "All")); [reflexivity|].
  symmetry. apply filter_true.
Qed.

Lemma multiselect_ok_iff (selected : list string) (x : string) :
  multiselect_ok selected x = true <-> selected = ["All"] \/ In x selected.
Proof.
  unfold multiselect_ok.
  destruct (list_eqb selected ["All"]) eqn:Hall; simpl.
  - apply list_eqb_eq in Hall. tauto.
  - rewrite isin_In. split; [tauto|].
    intros [Heq|Hin]; [|exact Hin].
    apply list_eqb_eq in Heq. congruence.
Qed.

Lemma selectbox_ok_iff (selected x : string) :
  selectbox_ok selected x = true <-> selected = "All" \/ x = selected.
Proof.
  unfold selectbox_ok.
  destruct (String.eqb selected "All") eqn:Hall; simpl.
  - apply String.eqb_eq in Hall. tauto.
  - rewrite String.eqb_eq. split; [tauto|].
    intros [Heq|Hx]; [|exact Hx].
    apply String.eqb_neq in Hall. contradiction.
Qed.

Lemma date_ok_iff (start_date end_date d : Z) :
  date_ok start_date end_date d = true
  <-> (to_datetime start_date <= d <= to_datetime end_date)%Z.
Proof. unfold date_ok. rewrite andb_true_iff, !Z.leb_le. reflexivity. Qed.

Lemma apply_filter_keeps (df_original : DataFrame) (spec : FilterSpec) :
  apply df_original spec = filter (keeps spec) df_original.
Proof.
  unfold apply, categorical_filter, filter_dates.
  rewrite !filter_multiselect_test, !filter_selectbox_test.
  rewrite !filter_filter_andb. apply filter_ext. intro r.
  unfold keeps, date_ok. rewrite !andb_assoc. reflexivity.
Qed.

(** The five stages amount to one test on each row by itself: the
    working subset is the data set without the rows that fail it, in the
    order of the data set.  A row passes when its Region and its State
    are selected (or the selection is ["All"]), its Category and its
    Sub-Category are the selected ones (or "All" is selected), and its
    Order Date lies between the midnights of the start and of the end
    date, both included. *)
Theorem apply_row_by_row (df_original : DataFrame) (spec : FilterSpec) :
  apply df_original spec = filter (keeps spec) df_original
  /\ forall r : Row,
       In r (apply df_original spec)
       <-> In r df_original
           /\ (selected_regions spec = ["All"]
               \/ In (Region r) (selected_regions spec))
           /\ (selected_states spec = ["All"]
               \/ In (State r) (selected_states spec))
           /\ (selected_category spec = "All"
               \/ Category r = selected_category spec)
           /\ (selected_subcat spec = "All"
               \/ Sub_Category r = selected_subcat spec)
           /\ (to_datetime (start_date spec) <= Order_Date r
               <= to_datetime (end_date spec))%Z.
Proof.
  split; [apply apply_filter_keeps|].
  intro r. rewrite apply_filter_keeps, filter_In. unfold keeps.
  rewrite !andb_true_iff, !multiselect_ok_iff, !selectbox_ok_iff, date_ok_iff.
  tauto.
Qed.

(** Filtering what is already filtered changes nothing, and filtering by
    two selections one after the other gives the same subset in either
    order. *)
Theorem apply_idempotent_commutes (df_original : DataFrame)
    (spec spec' : FilterSpec) :
  apply (apply df_original spec) spec = apply df_original spec
  /\ apply (apply df_original spec) spec'
     = apply (apply df_original spec') spec.
Proof.
  rewrite !apply_filter_keeps, !filter_filter_andb. split.
  - apply filter_ext. intro r. destruct (keeps spec r); reflexivity.
  - apply filter_ext. intro r. apply andb_comm.
Qed.

Lemma filter_dates_all (start_date end_date : Z) (df : DataFrame) :
  Forall (fun d => (to_datetime start_date <= d <= to_datetime end_date)%Z)
         (map Order_Date df) ->
  filter_dates start_date end_date df = df.
Proof.
  unfold filter_dates.
  induction df as [|r rest IH]; simpl; intro Hall; [reflexivity|].
  inversion Hall as [|? ? Hr Hrest]; subst.
  assert (Hok : date_ok start_date end_date (Order_Date r) = true)
    by (apply date_ok_iff; exact Hr).
  unfold date_ok in Hok. rewrite Hok, (IH Hrest). reflexivity.
Qed.

(** The dates the two date inputs start from: when the bounds of
    [min_max_date] are the midnights of two days, these two days as start
    and end date raise no error and keep every row of the filtered
    subset. *)
Theorem default_dates_keep_all (df_original df_filtered : DataFrame)
    (start_date end_date : Z) :
  min_max_date df_original df_filtered
  = (Some (to_datetime start_date), Some (to_datetime end_date)) ->
  date_range_errors start_date end_date = []
  /\ filter_dates start_date end_date df_filtered = df_filtered.
Proof.
  unfold min_max_date.
  destruct df_filtered as [|r rest]; simpl empty; cbv iota; intro Hbounds.
  - split; [|reflexivity].
    destruct df_original as [|r0 rest0]; [discriminate|].
    destruct (col_min_max_defined (map Order_Date (r0 :: rest0)))
      as [lo [hi [Hlo [Hhi [[Hin Hmin] [_ Hmax]]]]]]; [discriminate|].
    rewrite Hlo, Hhi in Hbounds. injection Hbounds as -> ->.
    rewrite Forall_forall in Hmax. specialize (Hmax _ Hin).
    apply valid_date_range_no_error.
    destruct (Z_le_gt_dec start_date end_date) as [Hle|Hgt]; [exact Hle|].
    assert (Hlt := to_datetime_lt end_date start_date). lia.
  - destruct (col_min_max_defined (map Order_Date (r :: rest)))
      as [lo [hi [Hlo [Hhi [[Hin Hmin] [_ Hmax]]]]]]; [discriminate|].
    rewrite Hlo, Hhi in Hbounds. injection Hbounds as -> ->. split.
    + rewrite Forall_forall in Hmax. specialize (Hmax _ Hin).
      apply valid_date_range_no_error.
      destruct (Z_le_gt_dec start_date end_date) as [Hle|Hgt]; [exact Hle|].
      assert (Hlt := to_datetime_lt end_date start_date). lia.
    + apply filter_dates_all.
      rewrite Forall_forall in Hmin, Hmax |- *.
      intros d Hd. split; [apply Hmin | apply Hmax]; exact Hd.
Qed.

Lemma default_dates_keep_all_witness :
  date_range_errors 10 12 = []
  /\ filter_dates 10 12 (categorical_filter superstore no_filter)
     = categorical_filter superstore no_filter.
Proof.
  apply (default_dates_keep_all superstore
           (categorical_filter superstore no_filter) 10 12).
  reflexivity.
Defined.

(** ** Sidebar option lists: properties *)

Lemma unique_In (col : list string) (x : string) :
  In x (unique col) <-> In x col.
Proof.
  induction col as [|y rest IH]; simpl; [reflexivity|].
  rewrite filter_In, IH, negb_true_iff, String.eqb_neq.
  destruct (string_dec y x) as [Heq|Hne]; [tauto|].
  split; [tauto|]. intros [Hy|Hx]; [tauto|].
  right. split; [exact Hx | congruence].
Qed.

Lemma unique_NoDup (col : list string) : NoDup (unique col).
Proof.
  induction col as [|y rest IH]; simpl; constructor.
  - rewrite filter_In, negb_true_iff, String.eqb_neq. tauto.
  - apply NoDup_filter, IH.
Qed.

Lemma string_compare_refl (s : string) : String.compare s s = Eq.
Proof.
  induction s as [|c s IH]; simpl; [reflexivity|].
  unfold Ascii.compare. rewrite N.compare_refl. exact IH.
Qed.

Lemma string_compare_lt_trans (s1 s2 s3 : string) :
  String.compare s1 s2 = Lt -> String.compare s2 s3 = Lt ->
  String.compare s1 s3 = Lt.
Proof.
  revert s2 s3. induction s1 as [|a s1 IH]; intros [|b s2] [|c s3]; simpl;
    try discriminate; try reflexivity.
  destruct (Ascii.compare a b) eqn:Hab; try discriminate;
    destruct (Ascii.compare b c) eqn:Hbc; try discriminate.
  - apply Ascii.compare_eq_iff in Hab, Hbc. subst.
    unfold Ascii.compare. rewrite N.compare_refl. apply IH.
  - apply Ascii.compare_eq_iff in Hab. subst. rewrite Hbc. reflexivity.
  - apply Ascii.compare_eq_iff in Hbc. subst. rewrite Hab. reflexivity.
  - intros _ _. unfold Ascii.compare in *.
    rewrite N.compare_lt_iff in Hab, Hbc.
    assert (Hac : (Ascii.N_of_ascii a < Ascii.N_of_ascii c)%N)
      by (eapply N.lt_trans; eassumption).
    apply N.compare_lt_iff in Hac. rewrite Hac. reflexivity.
Qed.

Lemma string_leb_trans (s1 s2 s3 : string) :
  String.leb s1 s2 = true -> String.leb s2 s3 = true ->
  String.leb s1 s3 = true.
Proof.
  unfold String.leb.
  destruct (String.compare s1 s2) eqn:H12; try discriminate;
    destruct (String.compare s2 s3) eqn:H23; try discriminate; intros _ _.
  - apply String.compare_eq_iff in H12, H23. subst.
    rewrite string_compare_refl. reflexivity.
  - apply String.compare_eq_iff in H12. subst. rewrite H23. reflexivity.
  - apply String.compare_eq_iff in H23. subst. rewrite H12. reflexivity.
  - rewrite (string_compare_lt_trans s1 s2 s3 H12 H23). reflexivity.
Qed.

#[export] Instance GroupKeyOrder_string : GroupKeyOrder string.
Proof.
  split; simpl.
  - apply String.leb_total.
  - apply string_leb_trans.
  - apply String.leb_antisym.
Qed.

#[export] Instance GroupKeyOrder_datetime : GroupKeyOrder Z.
Proof.
  split; simpl; intros; rewrite ?Z.leb_le in *; lia.
Qed.

Section SortedKeys.
Context {K : Type} `{GroupKeyOrder K}.

Lemma insert_key_In (k x : K) (keys : list K) :
  In x (insert_key k keys) <-> x = k \/ In x keys.
Proof.
  induction keys as [|h rest IH]; simpl; [intuition|].
  destruct (key_leb k h); simpl; [intuition|].
  rewrite IH. intuition.
Qed.

Lemma insert_key_sorted (k : K) (keys : list K) :
  StronglySorted (fun a b => key_leb a b = true) keys ->
  StronglySorted (fun a b => key_leb a b = true) (insert_key k keys).
Proof.
  induction 1 as [|h rest Hsorted IH Hall]; simpl.
  - constructor; constructor.
  - destruct (key_leb k h) eqn:Hkh.
    + constructor; [constructor; assumption|].
      constructor; [exact Hkh|].
      eapply Forall_impl; [|exact Hall].
      intros x Hx. eapply key_leb_trans; eassumption.
    + constructor; [exact IH|].
      apply Forall_forall. intros x Hx. apply insert_key_In in Hx.
      destruct Hx as [->|Hx].
      * destruct (key_leb_total k h) as [Hle|Hle]; [congruence | exact Hle].
      * rewrite Forall_forall in Hall. apply Hall; exact Hx.
Qed.

Lemma sort_keys_sorted (keys : list K) :
  StronglySorted (fun a b => key_leb a b = true) (sort_keys keys).
Proof.
  induction keys as [|k rest IH]; simpl; [constructor|].
  apply insert_key_sorted; exact IH.
Qed.

Lemma sorted_NoDup_ascending (keys : list K) :
  StronglySorted (fun a b => key_leb a b = true) keys -> NoDup keys ->
  StronglySorted ascending keys.
Proof.
  induction 1 as [|h rest Hsorted IH Hall]; intro Hnodup; [constructor|].
  inversion Hnodup as [|? ? Hnotin Hrest]; subst.
  constructor; [apply IH; exact Hrest|].
  rewrite Forall_forall in Hall |- *. intros x Hx. split.
  - apply Hall; exact Hx.
  - intros ->. contradiction.
Qed.

Lemma sort_keys_ascending (keys : list K) :
  NoDup keys -> StronglySorted ascending (sort_keys keys).
Proof.
  intro Hnodup. apply sorted_NoDup_ascending; [apply sort_keys_sorted|].
  eapply Permutation_NoDup; [apply sort_keys_perm | exact Hnodup].
Qed.
End SortedKeys.

Lemma sorted_unique_offers (col : list string) : offers (sorted (unique col)) col.
Proof.
  unfold offers, sorted. split; [|split].
  - eapply Permutation_NoDup; [apply sort_keys_perm | apply unique_NoDup].
  - apply sort_keys_ascending, unique_NoDup.
  - intro x. split; intro Hx.
    + apply unique_In.
      eapply Permutation_in; [apply Permutation_sym, sort_keys_perm | exact Hx].
    + eapply Permutation_in; [apply sort_keys_perm|].
      apply unique_In; exact Hx.
Qed.

(** Each of the four widgets offers "All" first and then the distinct
    values of its column, each once and in ascending order; the Region
    list is read off the whole data set, and each later list off the
    subset the earlier stages have left. *)
Theorem option_lists_offered (df_original : DataFrame) (spec : FilterSpec) :
  offers (all_regions df_original) (map Region df_original)
  /\ offers (all_states df_original spec)
            (map State (after_regions df_original spec))
  /\ offers (all_categories df_original spec)
            (map Category (after_states df_original spec))
  /\ offers (all_subcats df_original spec)
            (map Sub_Category (after_category df_original spec))
  /\ forall values : list string,
       hd_error (options values) = Some "All"
       /\ tl (options values) = values.
Proof.
  repeat split; try apply sorted_unique_offers.
Qed.

Lemma offered_In (col : Row -> string) (df : DataFrame) (x : string) :
  In x (sorted (unique (map col df))) <-> exists r, In r df /\ col r = x.
Proof.
  destruct (sorted_unique_offers (map col df)) as [_ [_ Hin]].
  rewrite Hin, in_map_iff. split; intros [r [H1 H2]]; exists r; tauto.
Qed.

Lemma after_regions_In (df_original : DataFrame) (spec : FilterSpec) (r : Row) :
  In r (after_regions df_original spec)
  <-> In r df_original
      /\ (selected_regions spec = ["All"]
          \/ In (Region r) (selected_regions spec)).
Proof.
  unfold after_regions.
  rewrite filter_multiselect_test, filter_In, multiselect_ok_iff. reflexivity.
Qed.

Lemma after_states_In (df_original : DataFrame) (spec : FilterSpec) (r : Row) :
  In r (after_states df_original spec)
  <-> In r (after_regions df_original spec)
      /\ (selected_states spec = ["All"]
          \/ In (State r) (selected_states spec)).
Proof.
  unfold after_states.
  rewrite filter_multiselect_test, filter_In, multiselect_ok_iff. reflexivity.
Qed.

Lemma after_category_In (df_original : DataFrame) (spec : FilterSpec) (r : Row) :
  In r (after_category df_original spec)
  <-> In r (after_states df_original spec)
      /\ (selected_category spec = "All"
          \/ Category r = selected_category spec).
Proof.
  unfold after_category.
  rewrite filter_selectbox_test, filter_In, selectbox_ok_iff. reflexivity.
Qed.

Lemma categorical_filter_In (df_original : DataFrame) (spec : FilterSpec)
    (r : Row) :
  In r (categorical_filter df_original spec)
  <-> In r (after_category df_original spec)
      /\ (selected_subcat spec = "All"
          \/ Sub_Category r = selected_subcat spec).
Proof.
  unfold categorical_filter.
  change (filter_selectbox Category (selected_category spec)
            (filter_multiselect State (selected_states spec)
               (filter_multiselect Region (selected_regions spec) df_original)))
    with (after_category df_original spec).
  rewrite filter_selectbox_test, filter_In, selectbox_ok_iff. reflexivity.
Qed.

(** The option lists narrow with the earlier choices: a State is offered
    exactly when some row of the data set has it and passes the Region
    stage, and a Sub-Category is offered exactly when some row has it and
    passes the Region, State and Category stages. *)
Theorem option_lists_cascade (df_original : DataFrame) (spec : FilterSpec)
    (x : string) :
  (In x (all_states df_original spec)
   <-> exists r, In r df_original /\ State r = x
                 /\ (selected_regions spec = ["All"]
                     \/ In (Region r) (selected_regions spec)))
  /\ (In x (all_subcats df_original spec)
      <-> exists r, In r df_original /\ Sub_Category r = x
                    /\ (selected_regions spec = ["All"]
                        \/ In (Region r) (selected_regions spec))
                    /\ (selected_states spec = ["All"]
                        \/ In (State r) (selected_states spec))
                    /\ (selected_category spec = "All"
                        \/ Category r = selected_category spec)).
Proof.
  unfold all_states, all_subcats. rewrite !offered_In. split.
  - split; intros [r Hr]; exists r; rewrite after_regions_In in *; tauto.
  - split; intros [r Hr]; exists r;
      rewrite after_category_In, after_states_In, after_regions_In in *; tauto.
Qed.

Lemma In_not_nil {A : Type} (x : A) (l : list A) : In x l -> l <> [].
Proof. destruct l; [intros [] | discriminate]. Qed.

(** A choice among the offered values never empties the subset at its
    stage: a selection that holds an offered Region (State) keeps a row,
    and so does an offered Category and an offered Sub-Category; with an
    offered Sub-Category, the subset after the four categorical stages is
    not empty. *)
Theorem offered_choice_keeps_a_row (df_original : DataFrame)
    (spec : FilterSpec) :
  ((exists x, In x (selected_regions spec) /\ In x (all_regions df_original)) ->
   after_regions df_original spec <> [])
  /\ ((exists x, In x (selected_states spec)
                 /\ In x (all_states df_original spec)) ->
      after_states df_original spec <> [])
  /\ (In (selected_category spec) (all_categories df_original spec) ->
      after_category df_original spec <> [])
  /\ (In (selected_subcat spec) (all_subcats df_original spec) ->
      categorical_filter df_original spec <> []).
Proof.
  unfold all_regions, all_states, all_categories, all_subcats.
  repeat split.
  - intros [x [Hsel Hoff]]. apply offered_In in Hoff.
    destruct Hoff as [r [Hr Hx]]. apply (In_not_nil r).
    apply after_regions_In. split; [exact Hr|]. right. congruence.
  - intros [x [Hsel Hoff]]. apply offered_In in Hoff.
    destruct Hoff as [r [Hr Hx]]. apply (In_not_nil r).
    apply after_states_In. split; [exact Hr|]. right. congruence.
  - intro Hoff. apply offered_In in Hoff.
    destruct Hoff as [r [Hr Hx]]. apply (In_not_nil r).
    apply after_category_In. split; [exact Hr|]. right. exact Hx.
  - intro Hoff. apply offered_In in Hoff.
    destruct Hoff as [r [Hr Hx]]. apply (In_not_nil r).
    apply categorical_filter_In. split; [exact Hr|]. right. exact Hx.
Qed.

Lemma offered_choice_keeps_a_row_witness :
  after_regions superstore East_tables <> []
  /\ after_states superstore East_tables <> []
  /\ after_category superstore East_tables <> []
  /\ categorical_filter superstore East_tables <> [].
Proof.
  destruct (offered_choice_keeps_a_row superstore East_tables)
    as [Hregion [Hstate [Hcategory Hsubcat]]].
  split; [|split; [|split]].
  - apply Hregion. exists "East". split; [left; reflexivity|].
    vm_compute. left. reflexivity.
  - apply Hstate. exists "New York". split; [left; reflexivity|].
    vm_compute. left. reflexivity.
  - apply Hcategory. vm_compute. left. reflexivity.
  - apply Hsubcat. vm_compute. right. left. reflexivity.
Defined.



(** ** Aggregator: further properties *)

(** The rows of a grouped table come in strictly ascending order of
    their key (so the time series runs forward in time), no key comes
    twice, and the keys are exactly the values of the key column of the
    frame. *)
Theorem groupBy_keys_ascending {K : Type} `{GroupKeyOrder K}
    (by_ : Row -> K) (df : DataFrame) :
  StronglySorted ascending (map g_key (groupBy by_ df))
  /\ NoDup (map g_key (groupBy by_ df))
  /\ (forall k : K, In k (map g_key (groupBy by_ df)) <-> In k (map by_ df)).
Proof.
  rewrite groupBy_keys. split; [|split].
  - unfold group_keys. apply sort_keys_ascending, NoDup_nodup.
  - apply group_keys_NoDup.
  - intro k. apply group_keys_In.
Qed.






(** ** RankSelector: further properties *)

Lemma firstn_incl {A : Type} (n : nat) (l : list A) (x : A) :
  In x (firstn n l) -> In x l.
Proof.
  intro Hx. rewrite <- (firstn_skipn n l). apply in_or_app. left; exact Hx.
Qed.

Lemma firstn_NoDup {A : Type} (n : nat) (l : list A) :
  NoDup l -> NoDup (firstn n l).
Proof.
  intro Hnodup. rewrite <- (firstn_skipn n l) in Hnodup.
  apply NoDup_app_remove_r in Hnodup. exact Hnodup.
Qed.

(** The rows of a top-n table are rows of the grouped table, no key
    comes twice among them, and a grouped table of at most n rows is
    returned whole, rearranged. *)
Theorem topN_of_groupBy {K : Type} `{GroupKey K} (kind : sort_kind)
    (by_ : Row -> K) (df : DataFrame) (kpi : Kpi) (n : nat) :
  (forall g, In g (topN kind (groupBy by_ df) kpi n) -> In g (groupBy by_ df))
  /\ NoDup (map g_key (topN kind (groupBy by_ df) kpi n))
  /\ ((List.length (groupBy by_ df) <= n)%nat ->
      Permutation (topN kind (groupBy by_ df) kpi n) (groupBy by_ df)).
Proof.
  unfold topN, head. split; [|split].
  - intros g Hg. apply firstn_incl in Hg.
    eapply Permutation_in; [apply Permutation_sym, sort_values_perm | exact Hg].
  - rewrite <- firstn_map. apply firstn_NoDup.
    eapply Permutation_NoDup;
      [apply Permutation_map, sort_values_perm|].
    rewrite groupBy_keys. apply group_keys_NoDup.
  - intro Hlen. rewrite firstn_all2.
    + apply Permutation_sym, sort_values_perm.
    + rewrite sort_values_length. exact Hlen.
Qed.

Lemma topN_of_groupBy_witness :
  Permutation (topN stable_kind (groupBy City superstore) Kpi_Profit 10)
              (groupBy City superstore).
Proof.
  apply (topN_of_groupBy stable_kind City superstore Kpi_Profit 10).
  vm_compute. repeat constructor.
Defined.





(** ** The session and the page: further properties *)




(** ** The two zero guards, side by side *)





Lemma groupBy_keys_ascending_witness :
  StronglySorted ascending (map g_key (groupBy Order_Date superstore))
  /\ NoDup (map g_key (groupBy Order_Date superstore))
  /\ (forall k : Z, In k (map g_key (groupBy Order_Date superstore))
                    <-> In k (map Order_Date superstore)).
Proof. apply (groupBy_keys_ascending Order_Date superstore). Defined.

(** ** The order of the rows of the data set *)



